(** * Workspace actions of the workbench

    A shallow embedding of [src/vs/workbench/browser/actions/workspaceActions.ts]:
    ten [Action] subclasses whose [run] methods delegate to injected services.

    The file is organised as follows:
    - the values the actions handle (locations, folders, object literals);
    - the signature of the collaborator services (every operation an action
      calls, with the type of its reply);
    - the bodies of the methods, as programs over that signature;
    - an interpreter that runs a program against arbitrary collaborators and
      records the calls that were made, in order;
    - the properties of each action. *)

From Stdlib Require Import String List Bool Lia.
Import ListNotations.
Open Scope string_scope.
Open Scope list_scope.

Set Implicit Arguments.
Set Warnings "-register-all".

(* ================================================================= *)
(** ** Values *)

(** Modelled from the spec: the class [URI] is declared outside the sources at
    hand; a location handle is represented by its textual form. *)
Record URI : Type := mkURI { uri_text : string }.

(** JavaScript values, as far as the actions build or hand over any.  An
    object literal is the list of its properties in the order they are
    written. *)
Inductive JsValue : Type :=
| JsUndefined
| JsBoolean (b : bool)
| JsString (s : string)
| JsURI (u : URI)
| JsObject (properties : list (string * JsValue)).

Definition ObjectLiteral : Type := list (string * JsValue).

(** JavaScript truthiness, used by [if (x)] and [!!x]. *)
Definition truthy (v : JsValue) : bool :=
  match v with
  | JsUndefined => false
  | JsBoolean b => b
  | JsString s => negb (s =? "")
  | JsURI _ => true
  | JsObject _ => true
  end.

(** [o.key]: the value of a property of an object literal, if it is set. *)
Fixpoint property (key : string) (o : ObjectLiteral) : option JsValue :=
  match o with
  | [] => None
  | (k, v) :: rest => if k =? key then Some v else property key rest
  end.

(** The keys an object literal sets. *)
Definition keys (o : ObjectLiteral) : list string := map fst o.

(** Modelled from the spec: the enumeration [WorkbenchState] is imported from
    [vs/platform/workspace/common/workspace]; the spec lists its three
    members. *)
Inductive WorkbenchState : Type := EMPTY | FOLDER | WORKSPACE.

(** [a === b] on workbench states. *)
Definition WorkbenchState_eqb (a b : WorkbenchState) : bool :=
  match a, b with
  | EMPTY, EMPTY | FOLDER, FOLDER | WORKSPACE, WORKSPACE => true
  | _, _ => false
  end.

(** Modelled from the spec: [IWorkspaceFolder] is imported; a folder is known
    by its location and carries other metadata, of which the name stands
    here. *)
Record IWorkspaceFolder : Type := mkFolder {
  uri : URI;
  name : string
}.

(** Modelled from the spec: the workspace the context service hands out, with
    its ordered folders and its optional configuration location. *)
Record IWorkspace : Type := mkWorkspace {
  folders : list IWorkspaceFolder;
  configuration : option URI
}.

(** Modelled from the spec: the window configuration snapshot, of which the
    actions read the remote authority. *)
Record IWindowConfiguration : Type := mkWindowConfiguration {
  remoteAuthority : option string
}.

(** Modelled from the spec: what [createUntitledWorkspace] resolves to; the
    actions read its [configPath]. *)
Record IWorkspaceIdentifier : Type := mkWorkspaceIdentifier {
  workspace_id : string;
  configPath : URI
}.

(** The telemetry payload is an opaque object for the actions. *)
Definition ITelemetryData : Type := ObjectLiteral.

(** An optional argument that was left out is [undefined]. *)
Definition optional_object (data : option ITelemetryData) : JsValue :=
  match data with
  | Some d => JsObject d
  | None => JsUndefined
  end.

(** [nls.localize(key, message)]: kept symbolic, the translation tables are
    not part of the actions. *)
Inductive LocalizedString : Type :=
| localize (key : string) (message : string).

(** The command identifiers imported from [workspaceCommands]; their texts
    are declared there and play no role here. *)
Inductive CommandId : Type :=
| ADD_ROOT_FOLDER_COMMAND_ID
| PICK_WORKSPACE_FOLDER_COMMAND_ID.

(* ================================================================= *)
(** ** The collaborators' asynchronous operations *)

(** Every operation that returns a promise, with the arguments of the call. *)
Inductive Request : Type :=
(* IFileDialogService *)
| pickFileAndOpen (options : ObjectLiteral)
| pickFolderAndOpen (options : ObjectLiteral)
| pickFileFolderAndOpen (options : ObjectLiteral)
| pickWorkspaceAndOpen (options : ObjectLiteral)
(* ICommandService *)
| executeCommand (commandId : CommandId)
(* IWorkspaceEditingService *)
| removeFolders (foldersToRemove : list URI)
| pickNewWorkspacePath
| createAndEnterWorkspace (newFolders : list ObjectLiteral) (path : URI)
| saveAndEnterWorkspace (path : URI)
| copyWorkspaceSettings (toWorkspace : IWorkspaceIdentifier)
(* IWindowService *)
| closeWorkspace
| openWindow (uris : list ObjectLiteral) (options : ObjectLiteral)
(* IWorkspacesService *)
| createUntitledWorkspace (ofFolders : list IWorkspaceFolder)
                          (authority : option string)
(* IEditorService *)
| openEditor (editor : ObjectLiteral).

(** What a command resolves to: [executeCommand<IWorkspaceFolder>] yields a
    folder or nothing, the other command is untyped. *)
Definition CommandResult (commandId : CommandId) : Type :=
  match commandId with
  | ADD_ROOT_FOLDER_COMMAND_ID => JsValue
  | PICK_WORKSPACE_FOLDER_COMMAND_ID => option IWorkspaceFolder
  end.

(** The type a promise of each operation is fulfilled with. *)
Definition Reply (c : Request) : Type :=
  match c with
  | pickFileAndOpen _ | pickFolderAndOpen _
  | pickFileFolderAndOpen _ | pickWorkspaceAndOpen _ => JsValue
  | executeCommand commandId => CommandResult commandId
  | removeFolders _ => unit
  | pickNewWorkspacePath => option URI
  | createAndEnterWorkspace _ _ => unit
  | saveAndEnterWorkspace _ => unit
  | copyWorkspaceSettings _ => unit
  | closeWorkspace => unit
  | openWindow _ _ => unit
  | createUntitledWorkspace _ _ => IWorkspaceIdentifier
  | openEditor _ => JsValue
  end.

Definition JsValue_of_option_URI (u : option URI) : JsValue :=
  match u with
  | Some u => JsURI u
  | None => JsUndefined
  end.

Definition JsValue_of_folder (f : IWorkspaceFolder) : JsValue :=
  JsObject [("uri", JsURI (uri f)); ("name", JsString (name f))].

(** A reply seen as a plain value, for a [run] typed [Promise<any>];
    [void] is [undefined]. *)
Definition as_any (c : Request) : Reply c -> JsValue :=
  match c return Reply c -> JsValue with
  | pickFileAndOpen _ | pickFolderAndOpen _
  | pickFileFolderAndOpen _ | pickWorkspaceAndOpen _ => fun v => v
  | executeCommand commandId =>
      match commandId return CommandResult commandId -> JsValue with
      | ADD_ROOT_FOLDER_COMMAND_ID => fun v => v
      | PICK_WORKSPACE_FOLDER_COMMAND_ID => fun f =>
          match f with
          | Some f => JsValue_of_folder f
          | None => JsUndefined
          end
      end
  | removeFolders _ => fun _ => JsUndefined
  | pickNewWorkspacePath => JsValue_of_option_URI
  | createAndEnterWorkspace _ _ => fun _ => JsUndefined
  | saveAndEnterWorkspace _ => fun _ => JsUndefined
  | copyWorkspaceSettings _ => fun _ => JsUndefined
  | closeWorkspace => fun _ => JsUndefined
  | openWindow _ _ => fun _ => JsUndefined
  | createUntitledWorkspace _ _ => fun w =>
      JsObject [("id", JsString (workspace_id w));
                ("configPath", JsURI (configPath w))]
  | openEditor _ => fun v => v
  end.

(* ================================================================= *)
(** ** Method bodies *)

(** Modelled from the spec: the base class [Action] is imported from
    [vs/base/common/actions]; an action has an [id], a [label] and a mutable
    [enabled] flag, which [super(id, label)] leaves set. *)
Record Action : Type := mkAction {
  id : string;
  label : string;
  enabled : bool
}.

Definition Action_new (id label : string) : Action :=
  {| id := id; label := label; enabled := true |}.

Definition set_enabled (b : bool) (this : Action) : Action :=
  {| id := id this; label := label this; enabled := b |}.

(** The body of a method or of a [then] callback.  Synchronous steps take
    the rest of the body as continuation; a body ends by yielding a value,
    by handing back the promise of a collaborator, or by chaining a callback
    on such a promise. *)
Inductive Prog : Type :=
| Value (v : JsValue)
    (* [return Promise.resolve(v)] in a method, [return v] in a callback *)
| GetWorkbenchState (k : WorkbenchState -> Prog)
    (* [contextService.getWorkbenchState()] *)
| GetWorkspace (k : IWorkspace -> Prog)
    (* [contextService.getWorkspace()] *)
| GetConfiguration (k : IWindowConfiguration -> Prog)
    (* [windowService.getConfiguration()] *)
| NotifyInfo (message : LocalizedString) (k : Prog)
    (* [notificationService.info(message)] *)
| GetEnabled (k : bool -> Prog)
    (* [this.enabled] *)
| SetEnabled (b : bool) (k : Prog)
    (* [this.enabled = b] *)
| Forward (c : Request)
    (* [return service.operation(arguments)] *)
| Then (c : Request) (k : Reply c -> Prog).
    (* [return service.operation(arguments).then(k)] *)

Module OpenFileAction.
Definition ID : string := "workbench.action.files.openFile".
Definition LABEL : LocalizedString :=
  localize "openFile" "Open File...".

Definition run (event : JsValue) (data : option ITelemetryData) : Prog :=
  Forward (pickFileAndOpen [("forceNewWindow", JsBoolean false);
                            ("telemetryExtraData", optional_object data)]).
End OpenFileAction.

Module OpenFolderAction.
Definition ID : string := "workbench.action.files.openFolder".
Definition LABEL : LocalizedString :=
  localize "openFolder" "Open Folder...".

Definition run (event : JsValue) (data : option ITelemetryData) : Prog :=
  Forward (pickFolderAndOpen [("forceNewWindow", JsBoolean false);
                              ("telemetryExtraData", optional_object data)]).
End OpenFolderAction.

Module OpenFileFolderAction.
Definition ID : string := "workbench.action.files.openFileFolder".
Definition LABEL : LocalizedString :=
  localize "openFileFolder" "Open...".

Definition run (event : JsValue) (data : option ITelemetryData) : Prog :=
  Forward (pickFileFolderAndOpen
             [("forceNewWindow", JsBoolean false);
              ("telemetryExtraData", optional_object data)]).
End OpenFileFolderAction.

Module AddRootFolderAction.
Definition ID : string := "workbench.action.addRootFolder".

Definition run : Prog :=
  Forward (executeCommand ADD_ROOT_FOLDER_COMMAND_ID).
End AddRootFolderAction.

Module GlobalRemoveRootFolderAction.
Definition ID : string := "workbench.action.removeRootFolder".
Definition LABEL : LocalizedString :=
  localize "globalRemoveFolderFromWorkspace" "Remove Folder from Workspace...".

Definition run : Prog :=
  GetWorkbenchState (fun state =>
    (* Workspace / Folder *)
    if WorkbenchState_eqb state WORKSPACE || WorkbenchState_eqb state FOLDER
    then
      Then (executeCommand PICK_WORKSPACE_FOLDER_COMMAND_ID) (fun folder =>
        match folder with
        | Some folder =>
            Then (removeFolders [uri folder]) (fun _ =>
              Value (JsBoolean true))
        | None => Value (JsBoolean true)
        end)
    else Value (JsBoolean true)).
End GlobalRemoveRootFolderAction.

Module SaveWorkspaceAsAction.
Definition ID : string := "workbench.action.saveWorkspaceAs".
Definition LABEL : LocalizedString :=
  localize "saveWorkspaceAsAction" "Save Workspace As...".

Definition run : Prog :=
  Then pickNewWorkspacePath (fun configPathUri =>
    match configPathUri with
    | Some configPathUri =>
        GetWorkbenchState (fun state =>
          match state with
          | EMPTY | FOLDER =>
              GetWorkspace (fun workspace =>
                let folders :=
                  map (fun folder => [("uri", JsURI (uri folder))])
                      (folders workspace) in
                Forward (createAndEnterWorkspace folders configPathUri))
          | WORKSPACE =>
              Forward (saveAndEnterWorkspace configPathUri)
          end)
    | None => Value JsUndefined
    end).
End SaveWorkspaceAsAction.

Module OpenWorkspaceAction.
Definition ID : string := "workbench.action.openWorkspace".
Definition LABEL : LocalizedString :=
  localize "openWorkspaceAction" "Open Workspace...".

Definition run (event : JsValue) (data : option ITelemetryData) : Prog :=
  Forward (pickWorkspaceAndOpen
             [("telemetryExtraData", optional_object data)]).
End OpenWorkspaceAction.

Module CloseWorkspaceAction.
Definition ID : string := "workbench.action.closeFolder".
Definition LABEL : LocalizedString :=
  localize "closeWorkspace" "Close Workspace".

Definition noWorkspaceOpened : LocalizedString :=
  localize "noWorkspaceOpened"
    "There is currently no workspace opened in this instance to close.".

Definition run : Prog :=
  GetWorkbenchState (fun state =>
    if WorkbenchState_eqb state EMPTY
    then NotifyInfo noWorkspaceOpened (Value JsUndefined)
    else Forward closeWorkspace).
End CloseWorkspaceAction.

Module OpenWorkspaceConfigFileAction.
Definition ID : string := "workbench.action.openWorkspaceConfigFile".
Definition LABEL : LocalizedString :=
  localize "openWorkspaceConfigFile" "Open Workspace Configuration File".

(** The statements of the constructor after [super(id, label)]. *)
Definition constructor : Prog :=
  GetWorkspace (fun workspace =>
    SetEnabled
      (negb (negb (truthy (JsValue_of_option_URI (configuration workspace)))))
      (Value JsUndefined)).

Definition run : Prog :=
  GetWorkspace (fun workspace =>
    match configuration workspace with
    | Some configuration =>
        Forward (openEditor [("resource", JsURI configuration)])
    | None => Value JsUndefined
    end).
End OpenWorkspaceConfigFileAction.

Module DuplicateWorkspaceInNewWindowAction.
Definition ID : string := "workbench.action.duplicateWorkspaceInNewWindow".
Definition LABEL : LocalizedString :=
  localize "duplicateWorkspaceInNewWindow" "Duplicate Workspace in New Window".

Definition run : Prog :=
  GetWorkspace (fun workspace =>
    let folders := folders workspace in
    GetConfiguration (fun windowConfiguration =>
      let remoteAuthority := remoteAuthority windowConfiguration in
      Then (createUntitledWorkspace folders remoteAuthority)
        (fun newWorkspace =>
          Then (copyWorkspaceSettings newWorkspace) (fun _ =>
            Forward (openWindow
                       [[("uri", JsURI (configPath newWorkspace));
                         ("typeHint", JsString "file")]]
                       [("forceNewWindow", JsBoolean true)]))))).
End DuplicateWorkspaceInNewWindowAction.

(** The action classes of the file, in the order they are declared. *)
Inductive ActionClass : Type :=
| OpenFile
| OpenFolder
| OpenFileFolder
| AddRootFolder
| GlobalRemoveRootFolder
| SaveWorkspaceAs
| OpenWorkspace
| CloseWorkspace
| OpenWorkspaceConfigFile
| DuplicateWorkspaceInNewWindow.

Definition action_classes : list ActionClass :=
  [OpenFile; OpenFolder; OpenFileFolder; AddRootFolder;
   GlobalRemoveRootFolder; SaveWorkspaceAs; OpenWorkspace; CloseWorkspace;
   OpenWorkspaceConfigFile; DuplicateWorkspaceInNewWindow].

(** [C.ID] for each class [C]. *)
Definition static_ID (c : ActionClass) : string :=
  match c with
  | OpenFile => OpenFileAction.ID
  | OpenFolder => OpenFolderAction.ID
  | OpenFileFolder => OpenFileFolderAction.ID
  | AddRootFolder => AddRootFolderAction.ID
  | GlobalRemoveRootFolder => GlobalRemoveRootFolderAction.ID
  | SaveWorkspaceAs => SaveWorkspaceAsAction.ID
  | OpenWorkspace => OpenWorkspaceAction.ID
  | CloseWorkspace => CloseWorkspaceAction.ID
  | OpenWorkspaceConfigFile => OpenWorkspaceConfigFileAction.ID
  | DuplicateWorkspaceInNewWindow => DuplicateWorkspaceInNewWindowAction.ID
  end.

(** The command identifiers as the external-interface section of the
    specification lists them. *)
Definition listed_command_identifiers : list string :=
  ["workbench.action.files.openFile";
   "workbench.action.files.openFolder";
   "workbench.action.files.openFileFolder";
   "workbench.action.addRootFolder";
   "workbench.action.removeRootFolder";
   "workbench.action.saveWorkspaceAs";
   "workbench.action.openWorkspace";
   "workbench.action.closeFolder";
   "workbench.action.openWorkspaceConfigFile";
   "workbench.action.duplicateWorkspaceInNewWindow"].

(* ================================================================= *)
(** ** Running a body against the collaborators *)

(** How a promise ends: fulfilled with a value, rejected with a reason, or
    never settled. *)
Inductive Outcome (A : Type) : Type :=
| Fulfilled (a : A)
| Rejected (reason : JsValue)
| Pending.

Arguments Fulfilled {A} a.
Arguments Rejected {A} reason.
Arguments Pending {A}.

Definition Outcome_map {A B : Type} (f : A -> B) (o : Outcome A) : Outcome B :=
  match o with
  | Fulfilled a => Fulfilled (f a)
  | Rejected e => Rejected e
  | Pending => Pending
  end.

(** What happens during a run, in order: what the collaborators are asked
    and how their promises settle, and the assignments to the instance. *)
Inductive Event : Type :=
| Notified (message : LocalizedString)  (* an informational notification *)
| Assigned (b : bool)                   (* [this.enabled = b] was executed *)
| Issued (c : Request)                  (* an operation is called *)
| Resolved (c : Request)                (* its promise is fulfilled *)
| Failed (c : Request) (reason : JsValue). (* its promise is rejected *)

(** Which promise object a method returns. *)
Inductive PromiseRef : Type :=
| OwnPromise                   (* [Promise.resolve(v)], made by the action *)
| CollaboratorPromise (c : Request)
                               (* the promise the call [c] returned, itself *)
| ChainedPromise (c : Request).  (* a new promise, [then] on that of [c] *)

(** The collaborators, over any type [W] of states of the world.  The
    context and window services are read; a notification and an asynchronous
    operation may change the world, and the world in which a promise settles
    is the one its callback runs in. *)
Record Services (W : Type) : Type := mkServices {
  getWorkbenchState : W -> WorkbenchState;
  getWorkspace : W -> IWorkspace;
  getConfiguration : W -> IWindowConfiguration;
  info : LocalizedString -> W -> W;
  serve : forall c : Request, W -> Outcome (Reply c) * W
}.

(** What a run leaves: the events, the promise object handed back and how
    it ends, the instance and the world afterwards. *)
Record Run (W : Type) : Type := mkRun {
  log : list Event;
  returned : PromiseRef;
  outcome : Outcome JsValue;
  this_after : Action;
  world_after : W
}.

Definition settlement (c : Request) (o : Outcome (Reply c)) : list Event :=
  match o with
  | Fulfilled _ => [Resolved c]
  | Rejected e => [Failed c e]
  | Pending => []
  end.

Section Interpreter.
Variable W : Type.
Variable S : Services W.

Definition after_events (events : list Event) (r : Run W) : Run W :=
  {| log := events ++ log r;
     returned := returned r;
     outcome := outcome r;
     this_after := this_after r;
     world_after := world_after r |}.

Definition chained_on (c : Request) (r : Run W) : Run W :=
  {| log := log r;
     returned := ChainedPromise c;
     outcome := outcome r;
     this_after := this_after r;
     world_after := world_after r |}.

(** Runs a body on the instance [this] in the world [w].  The synchronous
    steps run at once.  The callback of a [then] runs only when the promise
    it is chained on is fulfilled, with the value and in the world of that
    moment; if the promise is rejected or never settles the callback does
    not run and the chained promise ends the same way. *)
Fixpoint exec (p : Prog) (this : Action) (w : W) : Run W :=
  match p with
  | Value v =>
      {| log := []; returned := OwnPromise; outcome := Fulfilled v;
         this_after := this; world_after := w |}
  | GetWorkbenchState k => exec (k (getWorkbenchState S w)) this w
  | GetWorkspace k => exec (k (getWorkspace S w)) this w
  | GetConfiguration k => exec (k (getConfiguration S w)) this w
  | NotifyInfo message k =>
      after_events [Notified message] (exec k this (info S message w))
  | GetEnabled k => exec (k (enabled this)) this w
  | SetEnabled b k =>
      after_events [Assigned b] (exec k (set_enabled b this) w)
  | Forward c =>
      let (o, w') := serve S c w in
      {| log := Issued c :: settlement c o;
         returned := CollaboratorPromise c;
         outcome := Outcome_map (as_any c) o;
         this_after := this; world_after := w' |}
  | Then c k =>
      let (o, w') := serve S c w in
      chained_on c
        (after_events (Issued c :: settlement c o)
           match o with
           | Fulfilled a => exec (k a) this w'
           | Rejected e =>
               {| log := []; returned := OwnPromise; outcome := Rejected e;
                  this_after := this; world_after := w' |}
           | Pending =>
               {| log := []; returned := OwnPromise; outcome := Pending;
                  this_after := this; world_after := w' |}
           end)
  end.
End Interpreter.

(** The operations called, in order. *)
Fixpoint calls (events : list Event) : list Request :=
  match events with
  | [] => []
  | Issued c :: rest => c :: calls rest
  | _ :: rest => calls rest
  end.

(** The notifications emitted, in order. *)
Fixpoint notifications (events : list Event) : list LocalizedString :=
  match events with
  | [] => []
  | Notified m :: rest => m :: notifications rest
  | _ :: rest => notifications rest
  end.

(** The assignments to [this.enabled], in order. *)
Fixpoint assignments (events : list Event) : list bool :=
  match events with
  | [] => []
  | Assigned b :: rest => b :: assignments rest
  | _ :: rest => assignments rest
  end.

(** A method is a pass-through of the operation [c]: it makes the single call
    [c] and hands back the promise of that call, so that it settles as the
    collaborator settles it. *)
Definition passes_through (W : Type) (S : Services W)
    (p : Prog) (c : Request) (this : Action) (w : W) : Prop :=
  let r := exec S p this w in
  returned r = CollaboratorPromise c /\
  calls (log r) = [c] /\
  notifications (log r) = [] /\
  outcome r = Outcome_map (as_any c) (fst (serve S c w)) /\
  this_after r = this /\
  world_after r = snd (serve S c w).

(** [new OpenWorkspaceConfigFileAction(id, label, ...)] in the world [w]. *)
Definition new_OpenWorkspaceConfigFileAction (W : Type) (S : Services W)
    (id label : string) (w : W) : Action :=
  this_after
    (exec S OpenWorkspaceConfigFileAction.constructor (Action_new id label) w).

(* ================================================================= *)
(** ** Scripted collaborators

    A concrete world to run the actions in: the context and window services
    answer from a record, a notification is kept, and every asynchronous
    operation settles as a script says, after which the world may have
    moved on. *)

Record Desk : Type := mkDesk {
  desk_state : WorkbenchState;
  desk_workspace : IWorkspace;
  desk_window : IWindowConfiguration;
  desk_notices : list LocalizedString
}.

Definition Script : Type := forall c : Request, Outcome (Reply c).

Definition post (message : LocalizedString) (d : Desk) : Desk :=
  {| desk_state := desk_state d;
     desk_workspace := desk_workspace d;
     desk_window := desk_window d;
     desk_notices := desk_notices d ++ [message] |}.

Definition scripted (answers : Script) (meanwhile : Request -> Desk -> Desk)
    : Services Desk :=
  {| getWorkbenchState := desk_state;
     getWorkspace := desk_workspace;
     getConfiguration := desk_window;
     info := post;
     serve := fun c d => (answers c, meanwhile c d) |}.

Definition unchanged (c : Request) (d : Desk) : Desk := d.

(** Every operation succeeds; the pickers and the workspace factory answer
    as given. *)
Definition succeeding (path : option URI) (folder : option IWorkspaceFolder)
    (created : IWorkspaceIdentifier) : Script :=
  fun c =>
    match c return Outcome (Reply c) with
    | pickFileAndOpen _ | pickFolderAndOpen _
    | pickFileFolderAndOpen _ | pickWorkspaceAndOpen _ =>
        Fulfilled JsUndefined
    | executeCommand commandId =>
        match commandId return Outcome (CommandResult commandId) with
        | ADD_ROOT_FOLDER_COMMAND_ID => Fulfilled JsUndefined
        | PICK_WORKSPACE_FOLDER_COMMAND_ID => Fulfilled folder
        end
    | removeFolders _ => Fulfilled tt
    | pickNewWorkspacePath => Fulfilled path
    | createAndEnterWorkspace _ _ => Fulfilled tt
    | saveAndEnterWorkspace _ => Fulfilled tt
    | copyWorkspaceSettings _ => Fulfilled tt
    | closeWorkspace => Fulfilled tt
    | openWindow _ _ => Fulfilled tt
    | createUntitledWorkspace _ _ => Fulfilled created
    | openEditor _ => Fulfilled JsUndefined
    end.

Definition file_a : URI := mkURI "file:///a".
Definition file_b : URI := mkURI "file:///b".
Definition file_ws : URI := mkURI "file:///team.code-workspace".
Definition file_new : URI := mkURI "file:///new.code-workspace".
Definition folder_a : IWorkspaceFolder := mkFolder file_a "a".
Definition folder_b : IWorkspaceFolder := mkFolder file_b "b".
Definition untitled : IWorkspaceIdentifier :=
  mkWorkspaceIdentifier "untitled-1" (mkURI "file:///untitled-1/workspace.json").

Definition desk_empty : Desk :=
  mkDesk EMPTY (mkWorkspace [] None) (mkWindowConfiguration None) [].
Definition desk_folder : Desk :=
  mkDesk FOLDER (mkWorkspace [folder_a] None) (mkWindowConfiguration None) [].
Definition desk_workspace_ab : Desk :=
  mkDesk WORKSPACE (mkWorkspace [folder_a; folder_b] (Some file_ws))
         (mkWindowConfiguration (Some "ssh-remote+box")) [].

(** A script in which the user cancels both pickers. *)
Definition cancelling : Script := succeeding None None untitled.

(** A script in which the user picks a new workspace path and a folder. *)
Definition picking : Script :=
  succeeding (Some file_new) (Some folder_b) untitled.

(** As [picking], but copying the settings fails. *)
Definition copy_fails : Script :=
  fun c =>
    match c return Outcome (Reply c) with
    | copyWorkspaceSettings _ => Rejected (JsString "EACCES")
    | c' => picking c'
    end.

(** As [picking], but the new window never reports back. *)
Definition window_hangs : Script :=
  fun c =>
    match c return Outcome (Reply c) with
    | openWindow _ _ => Pending
    | c' => picking c'
    end.

(** While the path picker is open, a workspace file is opened in the
    window. *)
Definition opens_workspace_meanwhile (c : Request) (d : Desk) : Desk :=
  match c with
  | pickNewWorkspacePath => desk_workspace_ab
  | _ => d
  end.

Definition an_action : Action := Action_new "some.id" "Some Label".

(* ================================================================= *)
(** ** The action set as a whole *)

(** [action.run(event, data)] on an instance of the class [a]; the methods
    declared as [run()] take no argument. *)
Definition run_of (a : ActionClass)
    (event : JsValue) (data : option ITelemetryData) : Prog :=
  match a with
  | OpenFile => OpenFileAction.run event data
  | OpenFolder => OpenFolderAction.run event data
  | OpenFileFolder => OpenFileFolderAction.run event data
  | AddRootFolder => AddRootFolderAction.run
  | GlobalRemoveRootFolder => GlobalRemoveRootFolderAction.run
  | SaveWorkspaceAs => SaveWorkspaceAsAction.run
  | OpenWorkspace => OpenWorkspaceAction.run event data
  | CloseWorkspace => CloseWorkspaceAction.run
  | OpenWorkspaceConfigFile => OpenWorkspaceConfigFileAction.run
  | DuplicateWorkspaceInNewWindow => DuplicateWorkspaceInNewWindowAction.run
  end.

(** The classes whose [run] calls [getWorkbenchState()]. *)
Definition consults_state (a : ActionClass) : bool :=
  match a with
  | GlobalRemoveRootFolder | SaveWorkspaceAs | CloseWorkspace => true
  | _ => false
  end.

(** The same collaborators, with a context service that reports the
    workbench state [state]. *)
Definition with_state (W : Type) (state : W -> WorkbenchState)
    (S : Services W) : Services W :=
  {| getWorkbenchState := state;
     getWorkspace := getWorkspace S;
     getConfiguration := getConfiguration S;
     info := info S;
     serve := serve S |}.

(** The last thing that happened. *)
Fixpoint last_event (events : list Event) : option Event :=
  match events with
  | [] => None
  | [e] => Some e
  | _ :: rest => last_event rest
  end.

Definition localize_key (s : LocalizedString) : string :=
  match s with localize key _ => key end.

Definition localize_message (s : LocalizedString) : string :=
  match s with localize _ message => message end.

(** Every [nls.localize] call of the file: the labels of the classes that
    declare theirs here ([AddRootFolderAction.LABEL] is imported), and the
    notification of the close-workspace action. *)
Definition localized_strings : list LocalizedString :=
  [OpenFileAction.LABEL; OpenFolderAction.LABEL; OpenFileFolderAction.LABEL;
   GlobalRemoveRootFolderAction.LABEL; SaveWorkspaceAsAction.LABEL;
   OpenWorkspaceAction.LABEL; CloseWorkspaceAction.LABEL;
   CloseWorkspaceAction.noWorkspaceOpened;
   OpenWorkspaceConfigFileAction.LABEL;
   DuplicateWorkspaceInNewWindowAction.LABEL].

(* ================================================================= *)
(** ** Properties *)

(** Case analysis on where an event stands in a log whose events are known:
    [H : known = earlier ++ event :: later]. *)
Ltac split_log H :=
  match type of H with
  | _ = ?earlier ++ _ :: _ =>
      let e := fresh "e" in
      destruct earlier as [|e earlier]; cbn in H;
      [ try discriminate H; try (injection H as H; try discriminate H)
      | try discriminate H;
        let E := fresh "E" in
        injection H as E H; try discriminate E; split_log H ]
  end.

Lemma calls_settlement (c : Request) (o : Outcome (Reply c)) :
  calls (settlement c o) = [].
Proof. destruct o; reflexivity. Qed.

Lemma notifications_settlement (c : Request) (o : Outcome (Reply c)) :
  notifications (settlement c o) = [].
Proof. destruct o; reflexivity. Qed.

Lemma assignments_settlement (c : Request) (o : Outcome (Reply c)) :
  assignments (settlement c o) = [].
Proof. destruct o; reflexivity. Qed.

Lemma calls_app (l1 l2 : list Event) : calls (l1 ++ l2) = calls l1 ++ calls l2.
Proof.
  induction l1 as [|e l1 IH]; [reflexivity|].
  destruct e; simpl; rewrite IH; reflexivity.
Qed.

Lemma notifications_app (l1 l2 : list Event) :
  notifications (l1 ++ l2) = notifications l1 ++ notifications l2.
Proof.
  induction l1 as [|e l1 IH]; [reflexivity|].
  destruct e; simpl; rewrite IH; reflexivity.
Qed.

Lemma WorkbenchState_eqb_eq (a b : WorkbenchState) :
  WorkbenchState_eqb a b = true <-> a = b.
Proof. destruct a, b; simpl; split; congruence. Qed.

Section Properties.
Variable W : Type.
Variable S : Services W.

(** [return service.operation(arguments)] is a pass-through, whatever the
    collaborators do. *)
Lemma Forward_passes_through (c : Request) (this : Action) (w : W) :
  passes_through S (Forward c) c this w.
Proof.
  unfold passes_through; cbn [exec].
  destruct (serve S c w) as [o w']; cbn.
  rewrite calls_settlement, notifications_settlement. repeat split.
Qed.

(** C6.  The open-file, open-folder and open-file-or-folder actions each
    make exactly one call, to their own entry point of the dialog service,
    with the options [{ forceNewWindow: false, telemetryExtraData: data }]
    where [data] is the payload given to [run]; this holds in every world
    and for every trigger (no branching), and the promise handed back is the
    one the dialog service returned, settling as that one settles. *)
Theorem open_actions_pass_through
    (event : JsValue) (data : option ITelemetryData) (this : Action) (w : W) :
  let options := [("forceNewWindow", JsBoolean false);
                  ("telemetryExtraData", optional_object data)] in
  passes_through S (OpenFileAction.run event data)
                 (pickFileAndOpen options) this w /\
  passes_through S (OpenFolderAction.run event data)
                 (pickFolderAndOpen options) this w /\
  passes_through S (OpenFileFolderAction.run event data)
                 (pickFileFolderAndOpen options) this w.
Proof.
  cbv zeta; repeat split; apply Forward_passes_through.
Qed.

(** C10.  The open-workspace action makes one call, to
    [pickWorkspaceAndOpen], whose options set [telemetryExtraData] (to the
    payload) and nothing else: [forceNewWindow] is not a property of them.
    The options of the three file and folder actions do set it, to
    [false]. *)
Theorem open_workspace_options_without_forceNewWindow
    (event : JsValue) (data : option ITelemetryData) (this : Action) (w : W) :
  (exists options,
     passes_through S (OpenWorkspaceAction.run event data)
                    (pickWorkspaceAndOpen options) this w /\
     keys options = ["telemetryExtraData"] /\
     property "telemetryExtraData" options = Some (optional_object data) /\
     property "forceNewWindow" options = None) /\
  (exists options,
     calls (log (exec S (OpenFileAction.run event data) this w))
       = [pickFileAndOpen options] /\
     calls (log (exec S (OpenFolderAction.run event data) this w))
       = [pickFolderAndOpen options] /\
     calls (log (exec S (OpenFileFolderAction.run event data) this w))
       = [pickFileFolderAndOpen options] /\
     property "forceNewWindow" options = Some (JsBoolean false)).
Proof.
  split.
  - eexists; split; [apply Forward_passes_through|].
    repeat split.
  - exists [("forceNewWindow", JsBoolean false);
            ("telemetryExtraData", optional_object data)].
    repeat split;
      [ apply (Forward_passes_through (pickFileAndOpen _) this w)
      | apply (Forward_passes_through (pickFolderAndOpen _) this w)
      | apply (Forward_passes_through (pickFileFolderAndOpen _) this w) ].
Qed.

(** C3.  The close-workspace action: when the workbench state is [EMPTY] the
    only thing that happens is one informational notification (the
    no-workspace-opened message), no operation of the window service is
    called, and the promise is fulfilled; when the state is [FOLDER] or
    [WORKSPACE], [closeWorkspace] is the one call made and nothing is
    notified. *)
Theorem close_workspace_run (this : Action) (w : W) :
  let r := exec S CloseWorkspaceAction.run this w in
  (getWorkbenchState S w = EMPTY ->
     log r = [Notified CloseWorkspaceAction.noWorkspaceOpened] /\
     notifications (log r) = [CloseWorkspaceAction.noWorkspaceOpened] /\
     calls (log r) = [] /\
     outcome r = Fulfilled JsUndefined) /\
  (getWorkbenchState S w = FOLDER \/ getWorkbenchState S w = WORKSPACE ->
     calls (log r) = [closeWorkspace] /\
     notifications (log r) = [] /\
     returned r = CollaboratorPromise closeWorkspace).
Proof.
  cbv zeta; unfold CloseWorkspaceAction.run; cbn [exec]; split.
  - intros ->; cbn. repeat split.
  - intros H.
    assert (E : WorkbenchState_eqb (getWorkbenchState S w) EMPTY = false)
      by (destruct H as [-> | ->]; reflexivity).
    rewrite E.
    destruct (Forward_passes_through closeWorkspace this w) as (R & C & N & _).
    repeat split; assumption.
Qed.

(** C2.  The remove-root-folder action: when the workbench state is
    [EMPTY], nothing is called (neither the pick command nor
    [removeFolders]) and the promise is fulfilled with a truthy value; when
    the state is [FOLDER] or [WORKSPACE] the pick command is dispatched
    first, and if it yields a folder [F] the calls are the pick and
    [removeFolders([F.uri])], while if it yields nothing the pick is the
    only call and the promise is fulfilled. *)
Theorem remove_root_folder_run (this : Action) (w : W) :
  let r := exec S GlobalRemoveRootFolderAction.run this w in
  let pick := executeCommand PICK_WORKSPACE_FOLDER_COMMAND_ID in
  (getWorkbenchState S w = EMPTY ->
     log r = [] /\
     exists v, outcome r = Fulfilled v /\ truthy v = true) /\
  (getWorkbenchState S w = FOLDER \/ getWorkbenchState S w = WORKSPACE ->
     (exists rest, log r = Issued pick :: rest) /\
     (forall F : IWorkspaceFolder,
        fst (serve S pick w) = Fulfilled (Some F) ->
        calls (log r) = [pick; removeFolders [uri F]]) /\
     (fst (serve S pick w) = Fulfilled None ->
        calls (log r) = [pick] /\
        exists v, outcome r = Fulfilled v)).
Proof.
  cbv zeta; unfold GlobalRemoveRootFolderAction.run; cbn [exec]; split.
  - intros ->; cbn. split; [reflexivity|]. exists (JsBoolean true). now split.
  - intros H.
    assert (E : WorkbenchState_eqb (getWorkbenchState S w) WORKSPACE
                || WorkbenchState_eqb (getWorkbenchState S w) FOLDER = true)
      by (destruct H as [-> | ->]; reflexivity).
    rewrite E; cbn [exec].
    destruct (serve S (executeCommand PICK_WORKSPACE_FOLDER_COMMAND_ID) w)
      as [o w1]; cbn [fst].
    split; [|split].
    + eexists; reflexivity.
    + intros F ->; cbn.
      destruct (serve S (removeFolders [uri F]) w1) as [o2 w2]; cbn.
      rewrite calls_app, calls_settlement.
      destruct o2; reflexivity.
    + intros ->; cbn. split; [reflexivity | eexists; reflexivity].
Qed.

(** C8.  The remove-root-folder action resolves to [true] whenever it
    resolves: with the state [EMPTY], after a cancelled pick, and after a
    successful [removeFolders]; no path resolves to anything else. *)
Theorem remove_root_folder_resolves_true (this : Action) (w : W) :
  let r := exec S GlobalRemoveRootFolderAction.run this w in
  let pick := executeCommand PICK_WORKSPACE_FOLDER_COMMAND_ID in
  let w1 := snd (serve S pick w) in
  (forall v, outcome r = Fulfilled v -> v = JsBoolean true) /\
  (getWorkbenchState S w = EMPTY ->
     outcome r = Fulfilled (JsBoolean true)) /\
  (getWorkbenchState S w <> EMPTY ->
     fst (serve S pick w) = Fulfilled None ->
     outcome r = Fulfilled (JsBoolean true)) /\
  (getWorkbenchState S w <> EMPTY ->
     forall F : IWorkspaceFolder,
       fst (serve S pick w) = Fulfilled (Some F) ->
       fst (serve S (removeFolders [uri F]) w1) = Fulfilled tt ->
       outcome r = Fulfilled (JsBoolean true)).
Proof.
  cbv zeta; unfold GlobalRemoveRootFolderAction.run; cbn [exec].
  destruct (getWorkbenchState S w); cbn [WorkbenchState_eqb orb exec].
  1: solve [cbn; repeat split; congruence].
  all: destruct (serve S (executeCommand PICK_WORKSPACE_FOLDER_COMMAND_ID) w)
         as [o w1]; cbn [fst snd];
       repeat split; try discriminate.
  all: try (intros _ ->; reflexivity).
  all: try (intros _ F -> E; cbn;
            destruct (serve S (removeFolders [uri F]) w1) as [o2 w2];
            cbn in E; subst o2; reflexivity).
  all: intros v; destruct o as [[F|] | e | ]; cbn; try congruence;
       destruct (serve S (removeFolders [uri F]) w1) as [o2 w2];
       destruct o2; cbn; congruence.
Qed.

(** C1.  The save-workspace-as action first asks [pickNewWorkspacePath].
    If the picker yields no path, that is the only call (nothing is created
    or saved).  If it yields a path [P], the state is read: for [EMPTY] and
    [FOLDER] the second and last call is [createAndEnterWorkspace] with the
    current folders, each turned into an object with the single property
    [uri], in order, and [P]; for [WORKSPACE] it is [saveAndEnterWorkspace]
    with [P] alone.  State and folders are those of the world in which the
    picker's promise was fulfilled. *)
Theorem save_workspace_as_run (this : Action) (w : W) :
  let r := exec S SaveWorkspaceAsAction.run this w in
  let picked := fst (serve S pickNewWorkspacePath w) in
  let w1 := snd (serve S pickNewWorkspacePath w) in
  (exists rest, log r = Issued pickNewWorkspacePath :: rest) /\
  (picked = Fulfilled None ->
     calls (log r) = [pickNewWorkspacePath] /\
     outcome r = Fulfilled JsUndefined) /\
  (forall P : URI, picked = Fulfilled (Some P) ->
     (getWorkbenchState S w1 = EMPTY \/ getWorkbenchState S w1 = FOLDER ->
        calls (log r) =
          [pickNewWorkspacePath;
           createAndEnterWorkspace
             (map (fun folder => [("uri", JsURI (uri folder))])
                  (folders (getWorkspace S w1)))
             P] /\
        Forall (fun o => keys o = ["uri"])
          (map (fun folder => [("uri", JsURI (uri folder))])
               (folders (getWorkspace S w1)))) /\
     (getWorkbenchState S w1 = WORKSPACE ->
        calls (log r) = [pickNewWorkspacePath; saveAndEnterWorkspace P])).
Proof.
  cbv zeta; unfold SaveWorkspaceAsAction.run; cbn [exec].
  destruct (serve S pickNewWorkspacePath w) as [o w1]; cbn [fst snd].
  split; [eexists; reflexivity|]. split.
  - intros ->; split; reflexivity.
  - intros P ->; cbn [exec chained_on after_events log settlement app].
    split.
    + intros H. split.
      * destruct H as [-> | ->]; cbn [exec];
          destruct (serve S (createAndEnterWorkspace _ P) w1) as [o2 w2];
          cbn; rewrite calls_settlement; reflexivity.
      * apply Forall_forall. intros o Ho.
        apply in_map_iff in Ho. destruct Ho as (f & <- & _). reflexivity.
    + intros ->; cbn [exec].
      destruct (serve S (saveAndEnterWorkspace P) w1) as [o2 w2];
        cbn; rewrite calls_settlement; reflexivity.
Qed.

(** The constructor of the open-workspace-config-file action assigns
    [enabled] once, to whether the workspace has a configuration. *)
Lemma OpenWorkspaceConfigFileAction_constructor_assigns
    (id label : string) (w : W) :
  let r := exec S OpenWorkspaceConfigFileAction.constructor
                (Action_new id label) w in
  assignments (log r) =
    [match configuration (getWorkspace S w) with
     | Some _ => true
     | None => false
     end] /\
  calls (log r) = [] /\
  enabled (this_after r) =
    match configuration (getWorkspace S w) with
    | Some _ => true
    | None => false
    end.
Proof.
  cbv zeta; unfold OpenWorkspaceConfigFileAction.constructor; cbn [exec].
  destruct (configuration (getWorkspace S w)); cbn; repeat split.
Qed.

(** Its [run] does nothing when the configuration it reads is absent. *)
Lemma OpenWorkspaceConfigFileAction_run_absent (this : Action) (w : W) :
  configuration (getWorkspace S w) = None ->
  let r := exec S OpenWorkspaceConfigFileAction.run this w in
  log r = [] /\ outcome r = Fulfilled JsUndefined /\
  this_after r = this /\ world_after r = w.
Proof.
  intros E; cbv zeta; unfold OpenWorkspaceConfigFileAction.run; cbn [exec].
  rewrite E; repeat split.
Qed.

(** Its [run] opens the configuration it reads when there is one. *)
Lemma OpenWorkspaceConfigFileAction_run_present
    (this : Action) (w : W) (C : URI) :
  configuration (getWorkspace S w) = Some C ->
  passes_through S OpenWorkspaceConfigFileAction.run
                 (openEditor [("resource", JsURI C)]) this w.
Proof.
  intros E; unfold passes_through, OpenWorkspaceConfigFileAction.run.
  cbn [exec]; rewrite E. apply Forward_passes_through.
Qed.

(** C4.  The open-workspace-config-file action: constructed in a world
    [w0] whose workspace has no configuration location it is disabled,
    constructed in one that has a configuration location it is enabled.
    When it runs, in a world [w] that may differ from [w0], it reads the
    configuration of [w]: if that is a location [C], the one call made is
    [openEditor({ resource: C })]; if it is absent, nothing is called or
    changed and the promise is fulfilled. *)
Theorem open_workspace_config_file
    (id label : string) (w0 w : W) :
  let this := new_OpenWorkspaceConfigFileAction S id label w0 in
  let r := exec S OpenWorkspaceConfigFileAction.run this w in
  (configuration (getWorkspace S w0) = None -> enabled this = false) /\
  (forall C0 : URI,
     configuration (getWorkspace S w0) = Some C0 -> enabled this = true) /\
  (forall C : URI,
     configuration (getWorkspace S w) = Some C ->
     calls (log r) = [openEditor [("resource", JsURI C)]] /\
     returned r = CollaboratorPromise (openEditor [("resource", JsURI C)])) /\
  (configuration (getWorkspace S w) = None ->
     log r = [] /\ outcome r = Fulfilled JsUndefined /\
     this_after r = this /\ world_after r = w).
Proof.
  cbv zeta; unfold new_OpenWorkspaceConfigFileAction.
  destruct (OpenWorkspaceConfigFileAction_constructor_assigns id label w0)
    as (_ & _ & En).
  split; [|split; [|split]].
  - intros E; rewrite En, E; reflexivity.
  - intros C0 E; rewrite En, E; reflexivity.
  - intros C E.
    destruct (OpenWorkspaceConfigFileAction_run_present
                (this_after
                   (exec S OpenWorkspaceConfigFileAction.constructor
                         (Action_new id label) w0)) w E)
      as (R & Cs & _).
    split; assumption.
  - intros E. now apply OpenWorkspaceConfigFileAction_run_absent.
Qed.

(** [run] of the open-workspace-config-file action neither assigns nor
    reads [this.enabled]. *)
Lemma OpenWorkspaceConfigFileAction_run_frame
    (this : Action) (b : bool) (w : W) :
  let r := exec S OpenWorkspaceConfigFileAction.run this w in
  let r' := exec S OpenWorkspaceConfigFileAction.run (set_enabled b this) w in
  assignments (log r) = [] /\
  this_after r = this /\
  log r' = log r /\ outcome r' = outcome r /\ returned r' = returned r /\
  world_after r' = world_after r.
Proof.
  cbv zeta; unfold OpenWorkspaceConfigFileAction.run; cbn [exec].
  destruct (configuration (getWorkspace S w)) as [C|]; cbn [exec].
  - destruct (serve S (openEditor [("resource", JsURI C)]) w) as [o w1]; cbn.
    rewrite assignments_settlement. repeat split.
  - repeat split.
Qed.

(** The log of the duplicate-workspace action, by how the promises of the
    factory, of the settings copy and of the window service settle. *)
Lemma DuplicateWorkspaceInNewWindowAction_log (this : Action) (w : W) :
  let create :=
    createUntitledWorkspace (folders (getWorkspace S w))
                            (remoteAuthority (getConfiguration S w)) in
  let open newWorkspace :=
    openWindow [[("uri", JsURI (configPath newWorkspace));
                 ("typeHint", JsString "file")]]
               [("forceNewWindow", JsBoolean true)] in
  let w1 := snd (serve S create w) in
  log (exec S DuplicateWorkspaceInNewWindowAction.run this w) =
    Issued create ::
    match fst (serve S create w) with
    | Fulfilled newWorkspace =>
        let copy := copyWorkspaceSettings newWorkspace in
        Resolved create :: Issued copy ::
        match fst (serve S copy w1) with
        | Fulfilled _ =>
            Resolved copy :: Issued (open newWorkspace) ::
            settlement (open newWorkspace)
              (fst (serve S (open newWorkspace) (snd (serve S copy w1))))
        | Rejected e => [Failed copy e]
        | Pending => []
        end
    | Rejected e => [Failed create e]
    | Pending => []
    end.
Proof.
  cbv zeta; unfold DuplicateWorkspaceInNewWindowAction.run; cbn [exec].
  destruct (serve S _ w) as [o w1]; cbn [fst snd].
  destruct o as [newWorkspace | e | ]; cbn; try reflexivity.
  destruct (serve S (copyWorkspaceSettings newWorkspace) w1) as [o2 w2].
  destruct o2 as [[] | e | ]; cbn; try reflexivity.
  destruct (serve S _ w2) as [o3 w3]; reflexivity.
Qed.

(** C5.  The duplicate-workspace action, for every folder list and remote
    authority of the world it runs in: wherever the log has a call of
    [openWindow], what comes before it is exactly the call of
    [createUntitledWorkspace] with those folders and that authority, its
    fulfilment with a workspace [newWorkspace], the call of
    [copyWorkspaceSettings(newWorkspace)] and the fulfilment of that copy;
    and the call is
    [openWindow([{ uri: newWorkspace.configPath, typeHint: 'file' }],
    { forceNewWindow: true })].  When the factory and the copy both succeed,
    the window is indeed opened, after them. *)
Theorem duplicate_workspace_copies_before_opening (this : Action) (w : W) :
  let r := exec S DuplicateWorkspaceInNewWindowAction.run this w in
  let create :=
    createUntitledWorkspace (folders (getWorkspace S w))
                            (remoteAuthority (getConfiguration S w)) in
  let w1 := snd (serve S create w) in
  (forall (earlier later : list Event) (uris : list ObjectLiteral)
          (options : ObjectLiteral),
     log r = earlier ++ Issued (openWindow uris options) :: later ->
     exists newWorkspace : IWorkspaceIdentifier,
       fst (serve S create w) = Fulfilled newWorkspace /\
       earlier = [Issued create; Resolved create;
                  Issued (copyWorkspaceSettings newWorkspace);
                  Resolved (copyWorkspaceSettings newWorkspace)] /\
       uris = [[("uri", JsURI (configPath newWorkspace));
                ("typeHint", JsString "file")]] /\
       options = [("forceNewWindow", JsBoolean true)]) /\
  (forall newWorkspace : IWorkspaceIdentifier,
     fst (serve S create w) = Fulfilled newWorkspace ->
     fst (serve S (copyWorkspaceSettings newWorkspace) w1) = Fulfilled tt ->
     calls (log r) =
       [create; copyWorkspaceSettings newWorkspace;
        openWindow [[("uri", JsURI (configPath newWorkspace));
                     ("typeHint", JsString "file")]]
                   [("forceNewWindow", JsBoolean true)]]).
Proof.
  cbv zeta. rewrite DuplicateWorkspaceInNewWindowAction_log; cbv zeta.
  destruct (serve S (createUntitledWorkspace _ _) w) as [o w1]; cbn [fst snd].
  split.
  - intros earlier later uris options H.
    destruct o as [newWorkspace | e | ]; [ | split_log H | split_log H ].
    exists newWorkspace. split; [reflexivity|].
    destruct (serve S (copyWorkspaceSettings newWorkspace) w1) as [o2 w2].
    cbn [fst snd] in H.
    destruct o2 as [[] | e | ]; [ | split_log H | split_log H ].
    destruct (serve S _ w2) as [o3 w3]; cbn [fst] in H.
    destruct o3 as [[] | e | ]; cbn [settlement] in H;
      split_log H; subst; repeat split.
  - intros newWorkspace -> E.
    destruct (serve S (copyWorkspaceSettings newWorkspace) w1) as [o2 w2].
    cbn [fst snd] in *; subst o2. cbn.
    rewrite calls_settlement; reflexivity.
Qed.

End Properties.

(** C9.  The open-workspace-config-file action assigns [enabled] exactly
    once, in its constructor; [run] makes no assignment to it, leaves the
    instance as it was, and behaves the same whatever the flag holds.  The
    flag can therefore be stale: an instance constructed without a
    configuration (disabled) opens the editor when a configuration is there
    at the time of [run], and one constructed with a configuration (enabled)
    does nothing when the configuration is gone. *)
Theorem enabled_is_assigned_at_construction_only :
  (forall (W : Type) (S : Services W) (id label : string) (w0 : W),
     exists b : bool,
       assignments
         (log (exec S OpenWorkspaceConfigFileAction.constructor
                    (Action_new id label) w0)) = [b]) /\
  (forall (W : Type) (S : Services W) (this : Action) (b : bool) (w : W),
     let r := exec S OpenWorkspaceConfigFileAction.run this w in
     let r' :=
       exec S OpenWorkspaceConfigFileAction.run (set_enabled b this) w in
     assignments (log r) = [] /\
     this_after r = this /\
     log r' = log r /\ outcome r' = outcome r /\ returned r' = returned r) /\
  (let S := scripted (succeeding None None untitled) unchanged in
   let this := new_OpenWorkspaceConfigFileAction S "id" "label" desk_empty in
   let r := exec S OpenWorkspaceConfigFileAction.run this desk_workspace_ab in
   enabled this = false /\
   calls (log r) = [openEditor [("resource", JsURI file_ws)]] /\
   enabled (this_after r) = false) /\
  (let S := scripted (succeeding None None untitled) unchanged in
   let this :=
     new_OpenWorkspaceConfigFileAction S "id" "label" desk_workspace_ab in
   let r := exec S OpenWorkspaceConfigFileAction.run this desk_empty in
   enabled this = true /\
   log r = [] /\
   enabled (this_after r) = true).
Proof.
  split; [|split; [|split]].
  - intros W S id label w0.
    destruct (OpenWorkspaceConfigFileAction_constructor_assigns S id label w0)
      as (A & _).
    eexists; exact A.
  - intros W S this b w.
    destruct (OpenWorkspaceConfigFileAction_run_frame S this b w)
      as (A & T & L & O & R & _).
    cbv zeta; repeat split; assumption.
  - cbv zeta; repeat split.
  - cbv zeta; repeat split.
Qed.

(** C7.  The static [ID]s of the ten action classes: none is the empty
    string, no two are equal, and in the order of the classes they are the
    ten command identifiers of the external interface. *)
Theorem static_IDs_are_the_listed_identifiers :
  (forall c : ActionClass, In c action_classes) /\
  length action_classes = 10 /\
  Forall (fun s => (s =? "") = false) (map static_ID action_classes) /\
  NoDup (map static_ID action_classes) /\
  (forall c d : ActionClass, static_ID c = static_ID d -> c = d) /\
  map static_ID action_classes = listed_command_identifiers.
Proof.
  split; [|split; [|split; [|split; [|split]]]].
  5: solve [intros [] [] H; try reflexivity; discriminate H].
  - intros []; cbn; tauto.
  - reflexivity.
  - repeat constructor.
  - repeat (constructor;
            [ cbn; intros H;
              repeat (destruct H as [H | H]; [discriminate H|]); exact H | ]).
    constructor.
  - reflexivity.
Qed.

(* ================================================================= *)
(** ** The properties on scripted collaborators *)

Lemma save_workspace_as_run_witness :
  (calls (log (exec (scripted cancelling unchanged)
                    SaveWorkspaceAsAction.run an_action desk_folder))
     = [pickNewWorkspacePath]) /\
  (calls (log (exec (scripted picking unchanged)
                    SaveWorkspaceAsAction.run an_action desk_empty))
     = [pickNewWorkspacePath; createAndEnterWorkspace [] file_new]) /\
  (calls (log (exec (scripted picking unchanged)
                    SaveWorkspaceAsAction.run an_action desk_folder))
     = [pickNewWorkspacePath;
        createAndEnterWorkspace [[("uri", JsURI file_a)]] file_new]) /\
  (calls (log (exec (scripted picking unchanged)
                    SaveWorkspaceAsAction.run an_action desk_workspace_ab))
     = [pickNewWorkspacePath; saveAndEnterWorkspace file_new]).
Proof.
  split; [|split; [|split]].
  - destruct (save_workspace_as_run (scripted cancelling unchanged)
                an_action desk_folder) as (_ & H & _).
    apply H; reflexivity.
  - destruct (save_workspace_as_run (scripted picking unchanged)
                an_action desk_empty) as (_ & _ & H).
    destruct (H file_new eq_refl) as (H1 & _).
    apply H1; left; reflexivity.
  - destruct (save_workspace_as_run (scripted picking unchanged)
                an_action desk_folder) as (_ & _ & H).
    destruct (H file_new eq_refl) as (H1 & _).
    apply H1; right; reflexivity.
  - destruct (save_workspace_as_run (scripted picking unchanged)
                an_action desk_workspace_ab) as (_ & _ & H).
    destruct (H file_new eq_refl) as (_ & H2).
    apply H2; reflexivity.
Defined.

Lemma remove_root_folder_run_witness :
  (log (exec (scripted picking unchanged)
             GlobalRemoveRootFolderAction.run an_action desk_empty) = []) /\
  (calls (log (exec (scripted picking unchanged)
                    GlobalRemoveRootFolderAction.run an_action
                    desk_workspace_ab))
     = [executeCommand PICK_WORKSPACE_FOLDER_COMMAND_ID;
        removeFolders [file_b]]) /\
  (calls (log (exec (scripted cancelling unchanged)
                    GlobalRemoveRootFolderAction.run an_action desk_folder))
     = [executeCommand PICK_WORKSPACE_FOLDER_COMMAND_ID]).
Proof.
  split; [|split].
  - destruct (remove_root_folder_run (scripted picking unchanged)
                an_action desk_empty) as (H & _).
    apply H; reflexivity.
  - destruct (remove_root_folder_run (scripted picking unchanged)
                an_action desk_workspace_ab) as (_ & H).
    destruct (H (or_intror eq_refl)) as (_ & H1 & _).
    apply (H1 folder_b); reflexivity.
  - destruct (remove_root_folder_run (scripted cancelling unchanged)
                an_action desk_folder) as (_ & H).
    destruct (H (or_introl eq_refl)) as (_ & _ & H2).
    apply H2; reflexivity.
Defined.

Lemma remove_root_folder_resolves_true_witness :
  (outcome (exec (scripted picking unchanged)
                 GlobalRemoveRootFolderAction.run an_action desk_empty)
     = Fulfilled (JsBoolean true)) /\
  (outcome (exec (scripted cancelling unchanged)
                 GlobalRemoveRootFolderAction.run an_action desk_folder)
     = Fulfilled (JsBoolean true)) /\
  (outcome (exec (scripted picking unchanged)
                 GlobalRemoveRootFolderAction.run an_action desk_workspace_ab)
     = Fulfilled (JsBoolean true)).
Proof.
  split; [|split].
  - destruct (remove_root_folder_resolves_true (scripted picking unchanged)
                an_action desk_empty) as (_ & H & _).
    apply H; reflexivity.
  - destruct (remove_root_folder_resolves_true (scripted cancelling unchanged)
                an_action desk_folder) as (_ & _ & H & _).
    apply H; [discriminate | reflexivity].
  - destruct (remove_root_folder_resolves_true (scripted picking unchanged)
                an_action desk_workspace_ab) as (_ & _ & _ & H).
    apply (H ltac:(discriminate) folder_b); reflexivity.
Defined.

Lemma close_workspace_run_witness :
  (log (exec (scripted cancelling unchanged)
             CloseWorkspaceAction.run an_action desk_empty)
     = [Notified CloseWorkspaceAction.noWorkspaceOpened]) /\
  (calls (log (exec (scripted cancelling unchanged)
                    CloseWorkspaceAction.run an_action desk_folder))
     = [closeWorkspace]) /\
  (notifications (log (exec (scripted cancelling unchanged)
                            CloseWorkspaceAction.run an_action
                            desk_workspace_ab))
     = []).
Proof.
  split; [|split].
  - destruct (close_workspace_run (scripted cancelling unchanged)
                an_action desk_empty) as (H & _).
    apply H; reflexivity.
  - destruct (close_workspace_run (scripted cancelling unchanged)
                an_action desk_folder) as (_ & H).
    apply H; left; reflexivity.
  - destruct (close_workspace_run (scripted cancelling unchanged)
                an_action desk_workspace_ab) as (_ & H).
    apply H; right; reflexivity.
Defined.

Lemma open_workspace_config_file_witness :
  (enabled (new_OpenWorkspaceConfigFileAction
              (scripted cancelling unchanged) "id" "label" desk_empty)
     = false) /\
  (enabled (new_OpenWorkspaceConfigFileAction
              (scripted cancelling unchanged) "id" "label" desk_workspace_ab)
     = true) /\
  (calls (log (exec (scripted cancelling unchanged)
                    OpenWorkspaceConfigFileAction.run
                    (new_OpenWorkspaceConfigFileAction
                       (scripted cancelling unchanged) "id" "label"
                       desk_workspace_ab)
                    desk_workspace_ab))
     = [openEditor [("resource", JsURI file_ws)]]) /\
  (log (exec (scripted cancelling unchanged)
             OpenWorkspaceConfigFileAction.run
             (new_OpenWorkspaceConfigFileAction
                (scripted cancelling unchanged) "id" "label"
                desk_workspace_ab)
             desk_folder)
     = []).
Proof.
  split; [|split; [|split]].
  - destruct (open_workspace_config_file (scripted cancelling unchanged)
                "id" "label" desk_empty desk_empty) as (H & _).
    apply H; reflexivity.
  - destruct (open_workspace_config_file (scripted cancelling unchanged)
                "id" "label" desk_workspace_ab desk_empty) as (_ & H & _).
    apply (H file_ws); reflexivity.
  - destruct (open_workspace_config_file (scripted cancelling unchanged)
                "id" "label" desk_workspace_ab desk_workspace_ab)
      as (_ & _ & H & _).
    apply (H file_ws); reflexivity.
  - destruct (open_workspace_config_file (scripted cancelling unchanged)
                "id" "label" desk_workspace_ab desk_folder)
      as (_ & _ & _ & H).
    apply H; reflexivity.
Defined.

Lemma duplicate_workspace_copies_before_opening_witness :
  let create :=
    createUntitledWorkspace [folder_a; folder_b] (Some "ssh-remote+box") in
  let window :=
    openWindow [[("uri", JsURI (configPath untitled));
                 ("typeHint", JsString "file")]]
               [("forceNewWindow", JsBoolean true)] in
  (log (exec (scripted picking unchanged)
             DuplicateWorkspaceInNewWindowAction.run an_action
             desk_workspace_ab)
     = [Issued create; Resolved create;
        Issued (copyWorkspaceSettings untitled);
        Resolved (copyWorkspaceSettings untitled)]
       ++ Issued window :: [Resolved window]) /\
  (calls (log (exec (scripted picking unchanged)
                    DuplicateWorkspaceInNewWindowAction.run an_action
                    desk_workspace_ab))
     = [create; copyWorkspaceSettings untitled; window]) /\
  (exists newWorkspace : IWorkspaceIdentifier,
     newWorkspace = untitled /\
     [Issued create; Resolved create;
      Issued (copyWorkspaceSettings untitled);
      Resolved (copyWorkspaceSettings untitled)]
     = [Issued create; Resolved create;
        Issued (copyWorkspaceSettings newWorkspace);
        Resolved (copyWorkspaceSettings newWorkspace)]).
Proof.
  cbv zeta.
  destruct (duplicate_workspace_copies_before_opening
              (scripted picking unchanged) an_action desk_workspace_ab)
    as (Safe & Live).
  split; [reflexivity | split].
  - apply (Live untitled); reflexivity.
  - destruct (Safe
                [Issued (createUntitledWorkspace [folder_a; folder_b]
                                                 (Some "ssh-remote+box"));
                 Resolved (createUntitledWorkspace [folder_a; folder_b]
                                                   (Some "ssh-remote+box"));
                 Issued (copyWorkspaceSettings untitled);
                 Resolved (copyWorkspaceSettings untitled)]
                [Resolved
                   (openWindow [[("uri", JsURI (configPath untitled));
                                 ("typeHint", JsString "file")]]
                               [("forceNewWindow", JsBoolean true)])]
                [[("uri", JsURI (configPath untitled));
                  ("typeHint", JsString "file")]]
                [("forceNewWindow", JsBoolean true)]
                eq_refl) as (nw & Hc & He & _).
    exists nw. split; [|exact He].
    cbn in Hc. injection Hc as Hc. symmetry; exact Hc.
Defined.

(* ================================================================= *)
(** ** Further runs *)

(** The state that decides between creating and saving is the one found
    when the picker answers, not the one [run] started in. *)
Example save_workspace_as_reads_state_late :
  calls (log (exec (scripted picking opens_workspace_meanwhile)
                   SaveWorkspaceAsAction.run an_action desk_folder))
  = [pickNewWorkspacePath; saveAndEnterWorkspace file_new].
Proof. reflexivity. Qed.

(** A failed settings copy rejects the promise of the action and no window
    is opened. *)
Example duplicate_workspace_copy_fails :
  let r := exec (scripted copy_fails unchanged)
                DuplicateWorkspaceInNewWindowAction.run an_action
                desk_workspace_ab in
  calls (log r)
  = [createUntitledWorkspace [folder_a; folder_b] (Some "ssh-remote+box");
     copyWorkspaceSettings untitled] /\
  outcome r = Rejected (JsString "EACCES").
Proof. split; reflexivity. Qed.

(** A pass-through stays pending as long as the collaborator's promise. *)
Example duplicate_workspace_window_hangs :
  outcome (exec (scripted window_hangs unchanged)
                DuplicateWorkspaceInNewWindowAction.run an_action
                desk_workspace_ab)
  = Pending.
Proof. reflexivity. Qed.

(** X1.  The add-root-folder action is a pass-through of the add-root-folder
    command: in every world and state it dispatches that one command and
    hands back the promise of the command service, settling as it does. *)
Lemma add_root_folder_passes_through
    (W : Type) (S : Services W) (this : Action) (w : W) :
  passes_through S AddRootFolderAction.run
                 (executeCommand ADD_ROOT_FOLDER_COMMAND_ID) this w.
Proof. apply Forward_passes_through. Qed.

(* ================================================================= *)
(** ** The action set as a whole: failures, frames, order *)

Lemma last_event_app (l1 l2 : list Event) :
  l2 <> [] -> last_event (l1 ++ l2) = last_event l2.
Proof.
  intros N; induction l1 as [|e l1 IH]; [reflexivity|].
  cbn [app last_event]. rewrite IH.
  destruct (l1 ++ l2) eqn:E; [|reflexivity].
  apply app_eq_nil in E; destruct E; contradiction.
Qed.


(** Explores a run: every answer of a collaborator, every way its promise
    can settle, every value read. *)
Ltac explore :=
  repeat (cbn;
          match goal with
          | |- context [let (_, _) := ?x in _] => destruct x
          | |- context [settlement _ ?o] => destruct o
          | |- context [Outcome_map _ ?o] => destruct o
          | |- context [match ?x with _ => _ end] => destruct x
          end).

Section ActionSet.
Variable W : Type.
Variable S : Services W.



(** X3.  No action calls an operation twice with the same arguments (there
    is no retry), and none calls more than three operations. *)
Theorem calls_are_few_and_not_repeated
    (a : ActionClass) (event : JsValue) (data : option ITelemetryData)
    (this : Action) (w : W) :
  let r := exec S (run_of a event data) this w in
  NoDup (calls (log r)) /\ length (calls (log r)) <= 3.
Proof.
  cbv zeta; destruct a; unfold run_of;
    unfold OpenFileAction.run, OpenFolderAction.run, OpenFileFolderAction.run,
      AddRootFolderAction.run, GlobalRemoveRootFolderAction.run,
      SaveWorkspaceAsAction.run, OpenWorkspaceAction.run,
      CloseWorkspaceAction.run, OpenWorkspaceConfigFileAction.run,
      DuplicateWorkspaceInNewWindowAction.run;
    explore;
    (split;
     [ repeat (constructor; [cbn; intuition discriminate|]); constructor
     | cbn; lia ]).
Qed.

(** X4.  No [run] touches the instance it is called on: it makes no
    assignment to [enabled], returns the instance as it was, and does the
    same on any other instance. *)
Theorem run_leaves_the_instance
    (a : ActionClass) (event : JsValue) (data : option ITelemetryData)
    (this other : Action) (w : W) :
  let r := exec S (run_of a event data) this w in
  let r' := exec S (run_of a event data) other w in
  assignments (log r) = [] /\
  this_after r = this /\
  log r' = log r /\ outcome r' = outcome r /\ returned r' = returned r /\
  world_after r' = world_after r.
Proof.
  cbv zeta; destruct a; unfold run_of;
    unfold OpenFileAction.run, OpenFolderAction.run, OpenFileFolderAction.run,
      AddRootFolderAction.run, GlobalRemoveRootFolderAction.run,
      SaveWorkspaceAsAction.run, OpenWorkspaceAction.run,
      CloseWorkspaceAction.run, OpenWorkspaceConfigFileAction.run,
      DuplicateWorkspaceInNewWindowAction.run;
    explore; repeat split.
Qed.

(** X5.  Only the close-workspace action ever notifies the user, and only
    when nothing is open: any other run emits no notification, and that one
    emits its message and does nothing else. *)
Theorem notifications_only_when_nothing_to_close
    (a : ActionClass) (event : JsValue) (data : option ITelemetryData)
    (this : Action) (w : W) :
  let r := exec S (run_of a event data) this w in
  notifications (log r) = [] \/
  (a = CloseWorkspace /\ getWorkbenchState S w = EMPTY /\
   log r = [Notified CloseWorkspaceAction.noWorkspaceOpened]).
Proof.
  cbv zeta; destruct a; unfold run_of;
    unfold OpenFileAction.run, OpenFolderAction.run, OpenFileFolderAction.run,
      AddRootFolderAction.run, GlobalRemoveRootFolderAction.run,
      SaveWorkspaceAsAction.run, OpenWorkspaceAction.run,
      CloseWorkspaceAction.run, OpenWorkspaceConfigFileAction.run,
      DuplicateWorkspaceInNewWindowAction.run;
    cbn [exec];
    try (destruct (getWorkbenchState S w) eqn:St);
    explore; try (left; reflexivity).
  all: right; repeat split.
Qed.

(** X7.  The remove-root-folder action removes only what was picked:
    wherever [removeFolders] is called, the state was not [EMPTY], all that
    happened before is the pick command and its fulfilment with a folder, and
    the argument is the list of that folder's location alone. *)
Theorem remove_folders_only_after_pick
    (this : Action) (w : W)
    (earlier later : list Event) (uris : list URI) :
  let r := exec S GlobalRemoveRootFolderAction.run this w in
  let pick := executeCommand PICK_WORKSPACE_FOLDER_COMMAND_ID in
  log r = earlier ++ Issued (removeFolders uris) :: later ->
  getWorkbenchState S w <> EMPTY /\
  earlier = [Issued pick; Resolved pick] /\
  exists F : IWorkspaceFolder,
    fst (serve S pick w) = Fulfilled (Some F) /\ uris = [uri F].
Proof.
  cbv zeta; unfold GlobalRemoveRootFolderAction.run; cbn [exec].
  destruct (getWorkbenchState S w);
    cbn [WorkbenchState_eqb orb exec]; intros H.
  1: solve [cbn in H; split_log H].
  all: destruct (serve S (executeCommand PICK_WORKSPACE_FOLDER_COMMAND_ID) w)
         as [o w1];
       destruct o as [[F|] | e | ]; cbn in H; try solve [split_log H];
       destruct (serve S (removeFolders [uri F]) w1) as [o2 w2];
       destruct o2 as [[] | e | ]; cbn in H; split_log H; subst;
       (split; [discriminate | split; [reflexivity|]]);
       exists F; split; reflexivity.
Qed.

(** X8.  The save-workspace-as action either creates or saves, never both,
    and only after a path was picked.  Wherever [createAndEnterWorkspace] is
    called, all that happened before is the picker and its fulfilment with
    the path passed on, the state read then is not [WORKSPACE], the folder
    list has one entry per workspace folder with the locations in order and
    no name, and [saveAndEnterWorkspace] is not called.  Wherever
    [saveAndEnterWorkspace] is called, the picker was fulfilled with its
    argument, the state read then is [WORKSPACE], and nothing is created. *)
Theorem save_workspace_as_creates_or_saves (this : Action) (w : W) :
  let r := exec S SaveWorkspaceAsAction.run this w in
  let picked := fst (serve S pickNewWorkspacePath w) in
  let w1 := snd (serve S pickNewWorkspacePath w) in
  (forall (earlier later : list Event) (newFolders : list ObjectLiteral)
          (P : URI),
     log r = earlier ++ Issued (createAndEnterWorkspace newFolders P) :: later ->
     earlier = [Issued pickNewWorkspacePath; Resolved pickNewWorkspacePath] /\
     picked = Fulfilled (Some P) /\
     getWorkbenchState S w1 <> WORKSPACE /\
     length newFolders = length (folders (getWorkspace S w1)) /\
     map (property "uri") newFolders
       = map (fun f => Some (JsURI (uri f))) (folders (getWorkspace S w1)) /\
     Forall (fun o => property "name" o = None) newFolders /\
     forall P' : URI, ~ In (saveAndEnterWorkspace P') (calls (log r))) /\
  (forall (earlier later : list Event) (P : URI),
     log r = earlier ++ Issued (saveAndEnterWorkspace P) :: later ->
     earlier = [Issued pickNewWorkspacePath; Resolved pickNewWorkspacePath] /\
     picked = Fulfilled (Some P) /\
     getWorkbenchState S w1 = WORKSPACE /\
     forall (newFolders : list ObjectLiteral) (P' : URI),
       ~ In (createAndEnterWorkspace newFolders P') (calls (log r))).
Proof.
  cbv zeta; unfold SaveWorkspaceAsAction.run; cbn [exec].
  destruct (serve S pickNewWorkspacePath w) as [o w1]; cbn [fst snd].
  split.
  - intros earlier later newFolders P H.
    destruct o as [[P0|] | e | ]; cbn in H; try solve [split_log H].
    cbn [exec]. destruct (getWorkbenchState S w1) eqn:St; cbn in H; cbn [exec].
    3: solve [destruct (serve S (saveAndEnterWorkspace P0) w1) as [o2 w2];
              destruct o2 as [[] | e | ]; cbn in H; split_log H].
    all: destruct (serve S (createAndEnterWorkspace _ P0) w1) as [o2 w2];
         destruct o2 as [[] | e | ]; cbn in H; split_log H; subst;
         (split; [reflexivity|]); (split; [reflexivity|]);
         (split; [discriminate|]);
         (split; [apply length_map|]);
         (split; [rewrite map_map; reflexivity|]);
         (split; [apply Forall_forall; intros x Hx;
                  apply in_map_iff in Hx; destruct Hx as (f & <- & _);
                  reflexivity|]);
         intros P' Hin; cbn in Hin;
         destruct Hin as [Hin | [Hin | []]]; discriminate Hin.
  - intros earlier later P H.
    destruct o as [[P0|] | e | ]; cbn in H; try solve [split_log H].
    cbn [exec]. destruct (getWorkbenchState S w1) eqn:St; cbn in H; cbn [exec].
    1, 2: solve [destruct (serve S (createAndEnterWorkspace _ P0) w1)
                   as [o2 w2];
                 destruct o2 as [[] | e | ]; cbn in H; split_log H].
    destruct (serve S (saveAndEnterWorkspace P0) w1) as [o2 w2];
      destruct o2 as [[] | e | ]; cbn in H; split_log H; subst;
      (split; [reflexivity|]); (split; [reflexivity|]);
      (split; [reflexivity|]);
      intros nf P' Hin; cbn in Hin;
      destruct Hin as [Hin | [Hin | []]]; discriminate Hin.
Qed.


(** X10.  The duplicate-workspace action reports success exactly when the
    new window was opened: its promise is fulfilled if and only if the
    promise of [openWindow] was. *)
Theorem duplicate_workspace_succeeds_iff_window_opened
    (this : Action) (w : W) :
  let r := exec S DuplicateWorkspaceInNewWindowAction.run this w in
  outcome r = Fulfilled JsUndefined <->
  exists (uris : list ObjectLiteral) (options : ObjectLiteral),
    In (Resolved (openWindow uris options)) (log r).
Proof.
  cbv zeta; unfold DuplicateWorkspaceInNewWindowAction.run.
  explore; cbn;
    (split;
     [ intros H; try discriminate H; do 2 eexists; cbn; tauto
     | intros (uris & options & H); cbn in H; try reflexivity;
       repeat (destruct H as [H | H]; [discriminate H|]); contradiction ]).
Qed.

(** X11.  Constructing the open-workspace-config-file action only reads:
    no operation is called, nothing is notified, the world is as before,
    the [id] and [label] are those given, and the instance is enabled
    exactly when the workspace has a configuration location at that
    moment. *)
Theorem OpenWorkspaceConfigFileAction_constructor_only_reads
    (an_id a_label : string) (w : W) :
  let r := exec S OpenWorkspaceConfigFileAction.constructor
                (Action_new an_id a_label) w in
  id (this_after r) = an_id /\
  label (this_after r) = a_label /\
  calls (log r) = [] /\
  notifications (log r) = [] /\
  world_after r = w /\
  (enabled (this_after r) = true <->
   configuration (getWorkspace S w) <> None).
Proof.
  cbv zeta; unfold OpenWorkspaceConfigFileAction.constructor; cbn [exec].
  destruct (configuration (getWorkspace S w)); cbn; repeat split;
    congruence.
Qed.

End ActionSet.

(** X6.  Seven of the actions never look at the workbench state: with a
    context service that reports any other state they run the same, so that
    opening, adding a folder, opening the configuration file and duplicating
    are not guarded by what is open.  The three others are: for each there
    is a world in which another state changes what is called. *)
Theorem state_is_consulted_by_three_actions :
  (forall (W : Type) (S : Services W) (state : W -> WorkbenchState)
          (a : ActionClass) (event : JsValue) (data : option ITelemetryData)
          (this : Action) (w : W),
     consults_state a = false ->
     exec (with_state state S) (run_of a event data) this w
       = exec S (run_of a event data) this w) /\
  (forall a : ActionClass,
     consults_state a = true ->
     exists (w : Desk) (state : Desk -> WorkbenchState),
       calls (log (exec (with_state state (scripted picking unchanged))
                        (run_of a JsUndefined None) an_action w))
       <> calls (log (exec (scripted picking unchanged)
                           (run_of a JsUndefined None) an_action w))).
Proof.
  split.
  - intros W S state a event data this w H.
    destruct a; try discriminate H; try reflexivity.
    unfold run_of, OpenWorkspaceConfigFileAction.run; cbn.
    destruct (configuration (getWorkspace S w)); reflexivity.
  - intros a H; destruct a; try discriminate H.
    + exists desk_empty, (fun _ => FOLDER); cbn; discriminate.
    + exists desk_folder, (fun _ => WORKSPACE); cbn; discriminate.
    + exists desk_empty, (fun _ => FOLDER); cbn; discriminate.
Qed.

(** X12.  The localized strings of the file: no two [nls.localize] calls
    share a key, no two have the same default text, and no key or text is
    empty. *)
Theorem localized_strings_are_distinct :
  NoDup (map localize_key localized_strings) /\
  NoDup (map localize_message localized_strings) /\
  Forall (fun s => (localize_key s =? "") = false /\
                   (localize_message s =? "") = false) localized_strings.
Proof.
  split; [|split].
  - repeat (constructor;
            [ cbn; intros H;
              repeat (destruct H as [H | H]; [discriminate H|]); exact H | ]).
    constructor.
  - repeat (constructor;
            [ cbn; intros H;
              repeat (destruct H as [H | H]; [discriminate H|]); exact H | ]).
    constructor.
  - repeat constructor.
Qed.

(* ================================================================= *)
(** ** The action set on scripted collaborators *)


Lemma state_is_consulted_by_three_actions_witness :
  exec (with_state (fun _ => EMPTY) (scripted picking unchanged))
       (run_of DuplicateWorkspaceInNewWindow JsUndefined None)
       an_action desk_workspace_ab
  = exec (scripted picking unchanged)
         (run_of DuplicateWorkspaceInNewWindow JsUndefined None)
         an_action desk_workspace_ab.
Proof.
  apply (proj1 state_is_consulted_by_three_actions). reflexivity.
Defined.

Lemma remove_folders_only_after_pick_witness :
  exists F : IWorkspaceFolder,
    fst (serve (scripted picking unchanged)
               (executeCommand PICK_WORKSPACE_FOLDER_COMMAND_ID)
               desk_workspace_ab)
    = Fulfilled (Some F) /\
    [file_b] = [uri F].
Proof.
  destruct (remove_folders_only_after_pick (scripted picking unchanged)
              an_action desk_workspace_ab
              [Issued (executeCommand PICK_WORKSPACE_FOLDER_COMMAND_ID);
               Resolved (executeCommand PICK_WORKSPACE_FOLDER_COMMAND_ID)]
              [Resolved (removeFolders [file_b])]
              [file_b] eq_refl) as (_ & _ & H).
  exact H.
Defined.

Lemma save_workspace_as_creates_or_saves_witness :
  (map (property "uri") [[("uri", JsURI file_a)]]
     = map (fun f => Some (JsURI (uri f))) [folder_a]) /\
  (desk_state desk_workspace_ab = WORKSPACE).
Proof.
  destruct (save_workspace_as_creates_or_saves (scripted picking unchanged)
              an_action desk_folder) as (Create & _).
  destruct (save_workspace_as_creates_or_saves (scripted picking unchanged)
              an_action desk_workspace_ab) as (_ & Save).
  split.
  - destruct (Create
                [Issued pickNewWorkspacePath; Resolved pickNewWorkspacePath]
                [Resolved (createAndEnterWorkspace
                             [[("uri", JsURI file_a)]] file_new)]
                [[("uri", JsURI file_a)]] file_new eq_refl)
      as (_ & _ & _ & _ & H & _).
    exact H.
  - destruct (Save
                [Issued pickNewWorkspacePath; Resolved pickNewWorkspacePath]
                [Resolved (saveAndEnterWorkspace file_new)]
                file_new eq_refl)
      as (_ & _ & H & _).
    exact H.
Defined.


Lemma duplicate_workspace_succeeds_iff_window_opened_witness :
  outcome (exec (scripted picking unchanged)
                DuplicateWorkspaceInNewWindowAction.run an_action
                desk_workspace_ab)
  = Fulfilled JsUndefined.
Proof.
  apply (proj2 (duplicate_workspace_succeeds_iff_window_opened
                  (scripted picking unchanged) an_action desk_workspace_ab)).
  exists [[("uri", JsURI (configPath untitled));
           ("typeHint", JsString "file")]],
         [("forceNewWindow", JsBoolean true)].
  cbn. tauto.
Defined.
